(** * GLONASS L1 C/A system parameters: framing constants and GNAV field tables

    Shallow embedding of [src/core/system_parameters/GLONASS_L1_CA.h].

    - C++ [int] constants are [Z] values; [int] arithmetic in initialisers is
      written with [Z.mul] and the truncating quotient [Z.quot].
    - C++ [double] constants are IEEE 754 binary64 values ([PrimFloat.float]);
      an [int] initialiser of a [double] goes through [double_of_int].
    - Every [std::vector<std::pair<int,int>>] field descriptor is a
      [list (Z * Z)] of (start bit, length in bits) pairs, kept under the
      source's name inside a module named after the comment block
      (COMMON FIELDS, STRING 1, ...) in which the header declares it. *)

From Stdlib Require Import ZArith List String Bool Lia PrimFloat Uint63.
Import ListNotations.

Set Warnings "-inexact-float".
Local Open Scope string_scope.
Local Open Scope Z_scope.

(** ** Scalar types of the header *)

(** Conversion of an [int] value to [double], as performed when an integer
    expression initialises a [const double].  Every 32-bit magnitude fits in
    63 bits, and binary64 represents it exactly. *)
Definition double_of_int (z : Z) : float :=
  if z <? 0 then PrimFloat.opp (PrimFloat.of_uint63 (Uint63.of_Z (- z)))
  else PrimFloat.of_uint63 (Uint63.of_Z z).

(** ** Physical constants (the one initialised from an integer expression) *)

(** [const double GLONASS_FLATTENING = 1/29825784;] -- both operands are
    [int] literals, so [/] is the truncating integer quotient. *)
Definition GLONASS_FLATTENING_int_expr : Z := Z.quot 1 29825784.
Definition GLONASS_FLATTENING : float :=
  double_of_int GLONASS_FLATTENING_int_expr.

(** ** Carrier and code frequencies (the one used below) *)

(** GLONASS L1 C/A code period, in seconds. *)
Definition GLONASS_L1_CA_CODE_PERIOD : float := 0.001%float.

(** ** Navigation message demodulation and decoding *)

Definition GLONASS_CA_PREAMBLE : list Z :=
  [1; 1; 1; 1; 1; 0; 0; 0; 1; 1; 0; 1; 1; 1; 0; 1; 0; 1; 0; 0; 0; 0; 1; 0; 0;
   1; 0; 1; 1; 0].
Definition GLONASS_CA_PREAMBLE_LENGTH_BITS : Z := 30.
Definition GLONASS_CA_PREAMBLE_LENGTH_SYMBOLS : Z := 300.
Definition GLONASS_CA_PREAMBLE_DURATION_S : float := 0.3%float.
Definition GLONASS_CA_TELEMETRY_RATE_BITS_SECOND : Z := 50.
Definition GLONASS_CA_TELEMETRY_SYMBOLS_PER_BIT : Z := 10.
Definition GLONASS_CA_TELEMETRY_RATE_SYMBOLS_SECOND : Z :=
  GLONASS_CA_TELEMETRY_RATE_BITS_SECOND * GLONASS_CA_TELEMETRY_SYMBOLS_PER_BIT.

Definition GLONASS_GNAV_WORD_LENGTH : Z := 4.
Definition GLONASS_GNAV_FRAME_LENGTH : Z := 40.
Definition GLONASS_GNAV_FRAME_BITS : Z := 1725.
Definition GLONASS_GNAV_FRAME_SECONDS : Z := 30.
Definition GLONASS_GNAV_FRAME_MS : Z := 30000.
Definition GLONASS_GNAV_STRING_BITS : Z := 115.

(** The two numbers that the header gives only in the comments of
    [GLONASS_GNAV_FRAME_BITS] and [GLONASS_GNAV_STRING_BITS]:
    "15 strings*(85 data bits + 30 time mark bits)". *)
Definition GNAV_STRINGS_PER_FRAME : Z := 15.
Definition GNAV_DATA_BITS_PER_STRING : Z := 85.

(** ** GLONASS GNAV navigation message structure *)

(** One [std::pair<int,int>]: (start bit, length in bits). *)
Definition field_range : Type := Z * Z.

(** One [std::vector<std::pair<int,int>>]. *)
Definition field_descriptor : Type := list field_range.

Module COMMON.
Definition STRING_ID : field_descriptor := [(2, 4)].
Definition KX : field_descriptor := [(78, 8)].
End COMMON.

Module STRING_1.
Definition P1 : field_descriptor := [(8, 2)].
Definition T_K : field_descriptor := [(10, 12)].
Definition X_N_DOT : field_descriptor := [(22, 24)].
Definition X_N_DOT_DOT : field_descriptor := [(46, 5)].
Definition X_N : field_descriptor := [(51, 27)].
End STRING_1.

Module STRING_2.
Definition B_N : field_descriptor := [(6, 3)].
Definition P2 : field_descriptor := [(9, 1)].
Definition T_B : field_descriptor := [(10, 7)].
Definition Y_N_DOT : field_descriptor := [(22, 24)].
Definition Y_N_DOT_DOT : field_descriptor := [(46, 5)].
Definition Y_N : field_descriptor := [(51, 27)].
End STRING_2.

Module STRING_3.
Definition P3 : field_descriptor := [(6, 1)].
Definition GAMMA_N : field_descriptor := [(7, 11)].
Definition P : field_descriptor := [(19, 2)].
Definition L_N : field_descriptor := [(21, 1)].
Definition Z_N_DOT : field_descriptor := [(22, 24)].
Definition Z_N_DOT_DOT : field_descriptor := [(46, 5)].
Definition Z_N : field_descriptor := [(51, 27)].
End STRING_3.

Module STRING_4.
Definition TAU_N : field_descriptor := [(6, 22)].
Definition DELTA_TAU_N : field_descriptor := [(28, 5)].
Definition E_N : field_descriptor := [(33, 5)].
Definition P4 : field_descriptor := [(52, 1)].
Definition F_T : field_descriptor := [(53, 4)].
Definition N_T : field_descriptor := [(60, 11)].
Definition N : field_descriptor := [(71, 5)].
Definition M : field_descriptor := [(76, 2)].
End STRING_4.

Module STRING_5.
Definition N_A : field_descriptor := [(6, 11)].
Definition TAU_C : field_descriptor := [(17, 32)].
Definition N_4 : field_descriptor := [(50, 5)].
Definition TAU_GPS : field_descriptor := [(55, 22)].
Definition L_N : field_descriptor := [(77, 1)].
End STRING_5.

Module STRING_6_8_10_12_14.
Definition C_N : field_descriptor := [(6, 1)].
Definition M_N_A : field_descriptor := [(7, 2)].
Definition n_A : field_descriptor := [(9, 5)].
Definition TAU_N_A : field_descriptor := [(14, 10)].
Definition LAMBDA_N_A : field_descriptor := [(24, 21)].
Definition DELTA_I_N_A : field_descriptor := [(45, 18)].
Definition EPSILON_N_A : field_descriptor := [(63, 15)].
End STRING_6_8_10_12_14.

Module STRING_7_9_11_13_15.
Definition OMEGA_N_A : field_descriptor := [(6, 16)].
Definition T_LAMBDA_N_A : field_descriptor := [(22, 21)].
Definition DELTA_T_N_A : field_descriptor := [(43, 22)].
Definition DELTA_T_DOT_N_A : field_descriptor := [(65, 7)].
Definition H_N_A : field_descriptor := [(72, 5)].
Definition L_N : field_descriptor := [(77, 1)].
End STRING_7_9_11_13_15.

(** *** The declarations as a table

    The header groups the descriptors under comment headings; a string-ID
    class is one such heading, and the two COMMON FIELDS belong to every
    class. *)

Inductive string_class : Type :=
| Class_1 | Class_2 | Class_3 | Class_4 | Class_5
| Class_6_8_10_12_14 | Class_7_9_11_13_15.

Definition all_classes : list string_class :=
  [Class_1; Class_2; Class_3; Class_4; Class_5;
   Class_6_8_10_12_14; Class_7_9_11_13_15].

(** A declaration: the C++ identifier and the vector bound to it. *)
Record field_decl : Type := Decl { fd_name : string; fd_desc : field_descriptor }.

Definition common_fields : list field_decl :=
  [Decl "STRING_ID" COMMON.STRING_ID; Decl "KX" COMMON.KX].

Definition own_fields (c : string_class) : list field_decl :=
  match c with
  | Class_1 =>
      [Decl "P1" STRING_1.P1; Decl "T_K" STRING_1.T_K;
       Decl "X_N_DOT" STRING_1.X_N_DOT;
       Decl "X_N_DOT_DOT" STRING_1.X_N_DOT_DOT; Decl "X_N" STRING_1.X_N]
  | Class_2 =>
      [Decl "B_N" STRING_2.B_N; Decl "P2" STRING_2.P2; Decl "T_B" STRING_2.T_B;
       Decl "Y_N_DOT" STRING_2.Y_N_DOT;
       Decl "Y_N_DOT_DOT" STRING_2.Y_N_DOT_DOT; Decl "Y_N" STRING_2.Y_N]
  | Class_3 =>
      [Decl "P3" STRING_3.P3; Decl "GAMMA_N" STRING_3.GAMMA_N;
       Decl "P" STRING_3.P; Decl "L_N" STRING_3.L_N;
       Decl "Z_N_DOT" STRING_3.Z_N_DOT;
       Decl "Z_N_DOT_DOT" STRING_3.Z_N_DOT_DOT; Decl "Z_N" STRING_3.Z_N]
  | Class_4 =>
      [Decl "TAU_N" STRING_4.TAU_N; Decl "DELTA_TAU_N" STRING_4.DELTA_TAU_N;
       Decl "E_N" STRING_4.E_N; Decl "P4" STRING_4.P4; Decl "F_T" STRING_4.F_T;
       Decl "N_T" STRING_4.N_T; Decl "N" STRING_4.N; Decl "M" STRING_4.M]
  | Class_5 =>
      [Decl "N_A" STRING_5.N_A; Decl "TAU_C" STRING_5.TAU_C;
       Decl "N_4" STRING_5.N_4; Decl "TAU_GPS" STRING_5.TAU_GPS;
       Decl "L_N" STRING_5.L_N]
  | Class_6_8_10_12_14 =>
      [Decl "C_N" STRING_6_8_10_12_14.C_N;
       Decl "M_N_A" STRING_6_8_10_12_14.M_N_A;
       Decl "n_A" STRING_6_8_10_12_14.n_A;
       Decl "TAU_N_A" STRING_6_8_10_12_14.TAU_N_A;
       Decl "LAMBDA_N_A" STRING_6_8_10_12_14.LAMBDA_N_A;
       Decl "DELTA_I_N_A" STRING_6_8_10_12_14.DELTA_I_N_A;
       Decl "EPSILON_N_A" STRING_6_8_10_12_14.EPSILON_N_A]
  | Class_7_9_11_13_15 =>
      [Decl "OMEGA_N_A" STRING_7_9_11_13_15.OMEGA_N_A;
       Decl "T_LAMBDA_N_A" STRING_7_9_11_13_15.T_LAMBDA_N_A;
       Decl "DELTA_T_N_A" STRING_7_9_11_13_15.DELTA_T_N_A;
       Decl "DELTA_T_DOT_N_A" STRING_7_9_11_13_15.DELTA_T_DOT_N_A;
       Decl "H_N_A" STRING_7_9_11_13_15.H_N_A;
       Decl "L_N" STRING_7_9_11_13_15.L_N]
  end.

(** The fields of one string class: the common ones and its own. *)
Definition class_fields (c : string_class) : list field_decl :=
  (common_fields ++ own_fields c)%list.

(** Every declaration of the header, in source order. *)
Definition declared_fields : list field_decl :=
  (common_fields ++ flat_map own_fields all_classes)%list.

(** The class named by the heading that lists a string number. *)
Definition string_class_of_id (id : Z) : option string_class :=
  if id =? 1 then Some Class_1
  else if id =? 2 then Some Class_2
  else if id =? 3 then Some Class_3
  else if id =? 4 then Some Class_4
  else if id =? 5 then Some Class_5
  else if existsb (Z.eqb id) [6; 8; 10; 12; 14] then Some Class_6_8_10_12_14
  else if existsb (Z.eqb id) [7; 9; 11; 13; 15] then Some Class_7_9_11_13_15
  else None.

(** *** Bit ranges *)

Definition range_first (r : field_range) : Z := fst r.
Definition range_length (r : field_range) : Z := snd r.
Definition range_last (r : field_range) : Z := fst r + snd r - 1.

Definition ranges_disjoint (r1 r2 : field_range) : Prop :=
  range_last r1 < range_first r2 \/ range_last r2 < range_first r1.

Definition ranges_disjointb (r1 r2 : field_range) : bool :=
  (range_last r1 <? range_first r2) || (range_last r2 <? range_first r1).

Fixpoint pairwise_disjointb (l : list field_range) : bool :=
  match l with
  | [] => true
  | r :: t => forallb (ranges_disjointb r) t && pairwise_disjointb t
  end.

(** A range that is a span of 1-based positions of a string of [width] bits. *)
Definition range_within (width : Z) (r : field_range) : Prop :=
  1 <= range_first r /\ 1 <= range_length r /\ range_last r <= width.

Definition range_withinb (width : Z) (r : field_range) : bool :=
  (1 <=? range_first r) && (1 <=? range_length r) && (range_last r <=? width).

(** All the (start, length) pairs of a class, and of a list of declarations. *)
Definition ranges_of (l : list field_decl) : list field_range :=
  flat_map fd_desc l.

Definition class_ranges (c : string_class) : list field_range :=
  ranges_of (class_fields c).

(** The payload fields of a class: everything but the check bits [KX]. *)
Definition is_KX (d : field_decl) : bool := String.eqb (fd_name d) "KX".

Definition data_fields (c : string_class) : list field_decl :=
  filter (fun d => negb (is_KX d)) (class_fields c).

(** Lookup by identifier. *)
Definition declarations_named (n : string) : list field_decl :=
  filter (fun d => String.eqb (fd_name d) n) declared_fields.

Definition declared_ranges (n : string) : list field_range :=
  ranges_of (declarations_named n).

Definition class_carries (c : string_class) (n : string) : Prop :=
  In n (map fd_name (class_fields c)).

Definition class_carriesb (c : string_class) (n : string) : bool :=
  existsb (String.eqb n) (map fd_name (class_fields c)).

(** A name that stands for one bit range wherever it is declared. *)
Definition name_identifies_one_range (n : string) : Prop :=
  forall r1 r2,
    In r1 (declared_ranges n) -> In r2 (declared_ranges n) -> r1 = r2.

Definition name_identifies_one_rangeb (n : string) : bool :=
  match declared_ranges n with
  | [] => true
  | r :: t => forallb (fun r' => (fst r' =? fst r) && (snd r' =? snd r)) t
  end.

(** The fields that make up the receiver's TimeState, by the identifiers the
    header uses for them. *)
Definition TimeState_fields : list string := ["N_4"; "N_T"; "TAU_C"; "TAU_GPS"].

(** ** Bit-range access on a string *)

(** A GNAV string as the decoder holds it: [GLONASS_GNAV_STRING_BITS] bits,
    position 1 first. *)
Definition RawString : Type := list bool.

(** Modelled from the spec: the String Decoder's bit-range extraction and the
    matching insertion live in the navigation-message class, which is not part
    of the header; the spec says the decoder "extracts the bit range" of a
    table entry and reads it as an integer whose most significant bit comes
    first.  [bits_value] reads a run of bits most significant first. *)
Fixpoint bits_value (acc : Z) (bs : list bool) : Z :=
  match bs with
  | [] => acc
  | b :: t => bits_value (2 * acc + Z.b2z b) t
  end.

(** Modelled from the spec: the [n] low bits of [v], most significant first
    (the encoder's side of a field). *)
Fixpoint value_bits (n : nat) (v : Z) : list bool :=
  match n with
  | O => []
  | S k => Z.testbit v (Z.of_nat k) :: value_bits k v
  end.

(** Modelled from the spec: decode the unsigned integer stored in the
    1-based bit range [r] of [s]; the decoder that does this is not in the
    header. *)
Definition extract_field (s : RawString) (r : field_range) : Z :=
  bits_value 0
    (firstn (Z.to_nat (range_length r))
       (skipn (Z.to_nat (range_first r - 1)) s)).

(** Modelled from the spec: encode [v] into the 1-based bit range [r] of [s],
    leaving every other position as it was; the encoder is not in the
    header. *)
Definition insert_field (s : RawString) (r : field_range) (v : Z) : RawString :=
  (firstn (Z.to_nat (range_first r - 1)) s
   ++ value_bits (Z.to_nat (range_length r)) v
   ++ skipn (Z.to_nat (range_first r - 1) + Z.to_nat (range_length r)) s)%list.

(** ** Further constants of the header *)

(** [const double GLONASS_PI] and [GLONASS_TWO_PI]. *)
Definition GLONASS_PI : float := 3.1415926535898%float.
Definition GLONASS_TWO_PI : float := 6.283185307179586%float.

(** [const double GLONASS_SEMI_MAJOR_AXIS = 6378136;] (metres, an [int]
    literal) and [GLONASS_EARTH_RADIUS = 6378.136] (kilometres). *)
Definition GLONASS_SEMI_MAJOR_AXIS : float := double_of_int 6378136.
Definition GLONASS_EARTH_RADIUS : float := 6378.136%float.

(** The C/A code: rate in chips per second, length in chips, chip period in
    seconds ([GLONASS_L1_CA_CODE_PERIOD] is declared above). *)
Definition GLONASS_L1_CA_CODE_RATE_HZ : float := 0.511e6%float.
Definition GLONASS_L1_CA_CODE_LENGTH_CHIPS : float := 511.0%float.
Definition GLONASS_L1_CA_CHIP_PERIOD : float := 1.9569e-06%float.

(** ** Reading the preamble *)

(** Element [i] of the preamble array, counting from 0. *)
Definition preamble_bit (i : nat) : Z := nth i GLONASS_CA_PREAMBLE 0.

(** The same element as a chip: bit 1 is +1, bit 0 is -1. *)
Definition preamble_chip (i : nat) : Z := 2 * preamble_bit i - 1.

(** Correlation of the preamble with itself shifted by [k] positions, over
    the positions where the two overlap. *)
Definition preamble_autocorrelation (k : nat) : Z :=
  fold_right Z.add 0
    (map (fun i => preamble_chip i * preamble_chip (i + k))
       (seq 0 (List.length GLONASS_CA_PREAMBLE - k))).

(** ** Which bits a class assigns *)

(** Position [p] lies in the range [r]. *)
Definition covers (r : field_range) (p : Z) : bool :=
  (range_first r <=? p) && (p <=? range_last r).

(** The number of ranges of class [c] that contain position [p]. *)
Definition cover_count (c : string_class) (p : Z) : nat :=
  List.length (filter (fun r => covers r p) (class_ranges c)).

(** The positions 1..85 of the data bits. *)
Definition data_bit_positions : list Z :=
  map Z.of_nat (seq 1 (Z.to_nat GNAV_DATA_BITS_PER_STRING)).

(** The data-bit positions that no field of class [c] contains. *)
Definition unassigned_positions (c : string_class) : list Z :=
  filter (fun p => Nat.eqb (cover_count c p) 0) data_bit_positions.

(** * Properties *)

(** ** Helper lemmas on ranges *)

Lemma ranges_disjointb_sound r1 r2 :
  ranges_disjointb r1 r2 = true -> ranges_disjoint r1 r2.
Proof.
  unfold ranges_disjointb, ranges_disjoint.
  rewrite orb_true_iff, !Z.ltb_lt. tauto.
Qed.

Lemma pairwise_disjointb_sound l :
  pairwise_disjointb l = true -> ForallOrdPairs ranges_disjoint l.
Proof.
  induction l as [|r t IH]; simpl; intro H.
  - constructor.
  - apply andb_true_iff in H as [Hr Ht].
    constructor; [|auto].
    rewrite forallb_forall in Hr.
    apply Forall_forall. intros r' Hin.
    apply ranges_disjointb_sound; auto.
Qed.

Lemma range_withinb_sound w r :
  range_withinb w r = true -> range_within w r.
Proof.
  unfold range_withinb, range_within.
  rewrite !andb_true_iff, !Z.leb_le. tauto.
Qed.

Lemma forallb_Forall_within w l :
  forallb (range_withinb w) l = true -> Forall (range_within w) l.
Proof.
  rewrite forallb_forall, Forall_forall.
  intros H r Hin. apply range_withinb_sound; auto.
Qed.

(** Every range of every class lies in the data part of the string. *)
Lemma class_ranges_within_data c :
  Forall (range_within GNAV_DATA_BITS_PER_STRING) (class_ranges c).
Proof.
  apply forallb_Forall_within. destruct c; reflexivity.
Qed.

Lemma class_ranges_pairwise_disjoint c :
  ForallOrdPairs ranges_disjoint (class_ranges c).
Proof.
  apply pairwise_disjointb_sound. destruct c; reflexivity.
Qed.

Lemma in_class_ranges c d r :
  In d (class_fields c) -> In r (fd_desc d) -> In r (class_ranges c).
Proof.
  intros Hd Hr. unfold class_ranges, ranges_of.
  apply in_flat_map. exists d; auto.
Qed.

(** C1: within each string-ID class the bit ranges of the fields are pairwise
    disjoint, every range ends at or before bit 85, and every range is a span
    of 1-based positions of the 115-bit string. *)
Theorem fields_disjoint_and_within_data_bits :
  forall c : string_class,
    ForallOrdPairs ranges_disjoint (class_ranges c)
    /\ Forall (fun r => range_last r <= 85) (class_ranges c)
    /\ Forall (range_within GLONASS_GNAV_STRING_BITS) (class_ranges c).
Proof.
  intro c. split; [apply class_ranges_pairwise_disjoint|].
  pose proof (class_ranges_within_data c) as H.
  split; eapply Forall_impl; try exact H;
    unfold range_within, GNAV_DATA_BITS_PER_STRING, GLONASS_GNAV_STRING_BITS;
    intros r Hr; lia.
Qed.

(** ** Bit-range access: value of a run of bits *)

Lemma length_value_bits n v : List.length (value_bits n v) = n.
Proof. induction n; simpl; congruence. Qed.

Lemma mod_pow2_succ v k :
  0 <= k ->
  v mod 2 ^ (k + 1) = Z.b2z (Z.testbit v k) * 2 ^ k + v mod 2 ^ k.
Proof.
  intro Hk.
  rewrite Z.testbit_spec' by assumption.
  rewrite Z.pow_add_r, Z.pow_1_r by lia.
  assert (0 < 2 ^ k) by (apply Z.pow_pos_nonneg; lia).
  rewrite Z.rem_mul_r by lia. lia.
Qed.

Lemma bits_value_value_bits n : forall acc v,
  bits_value acc (value_bits n v) = acc * 2 ^ Z.of_nat n + v mod 2 ^ Z.of_nat n.
Proof.
  induction n as [|k IH]; intros acc v.
  - simpl. rewrite Z.mod_1_r. lia.
  - cbn [value_bits bits_value]. rewrite IH.
    rewrite Nat2Z.inj_succ, <- Z.add_1_r.
    rewrite (mod_pow2_succ v (Z.of_nat k)) by lia.
    rewrite Z.pow_add_r, Z.pow_1_r by lia. ring.
Qed.

Lemma skipn_firstn_app_exact {A} (k : nat) (s x : list A) :
  (k <= List.length s)%nat -> skipn k (firstn k s ++ x) = x.
Proof.
  intro Hk.
  rewrite skipn_app, length_firstn, Nat.min_l by assumption.
  rewrite Nat.sub_diag, skipn_all2 by (rewrite length_firstn; lia).
  reflexivity.
Qed.

Lemma firstn_app_exact {A} (x y : list A) : firstn (List.length x) (x ++ y) = x.
Proof.
  rewrite firstn_app, Nat.sub_diag, firstn_all. simpl. apply app_nil_r.
Qed.

(** Reading back a range just written gives the value written, for every
    range inside the string and every value that fits in it. *)
Lemma extract_insert_field (s : RawString) (r : field_range) (v : Z) :
  range_within (Z.of_nat (List.length s)) r ->
  0 <= v < 2 ^ range_length r ->
  extract_field (insert_field s r v) r = v.
Proof.
  intros (Hf & Hl & Hw) Hv.
  unfold extract_field, insert_field.
  unfold range_last in Hw. unfold range_first, range_length in *.
  rewrite skipn_firstn_app_exact by lia.
  set (n := Z.to_nat (snd r)).
  rewrite <- (length_value_bits n v) at 1.
  rewrite firstn_app_exact, bits_value_value_bits.
  subst n. rewrite Z2Nat.id by lia.
  rewrite Z.mod_small by lia. lia.
Qed.

Lemma length_insert_field (s : RawString) (r : field_range) (v : Z) :
  range_within (Z.of_nat (List.length s)) r ->
  List.length (insert_field s r v) = List.length s.
Proof.
  intros (Hf & Hl & Hw).
  unfold insert_field, range_last, range_first, range_length in *.
  rewrite !length_app, length_firstn, length_value_bits, length_skipn. lia.
Qed.

Lemma range_within_mono w w' r :
  w <= w' -> range_within w r -> range_within w' r.
Proof. unfold range_within. intros; lia. Qed.

(** ** Lookup by name *)

Lemma class_carriesb_iff c n : class_carriesb c n = true <-> class_carries c n.
Proof.
  unfold class_carriesb, class_carries. rewrite existsb_exists. split.
  - intros (x & Hin & Heq). apply String.eqb_eq in Heq. subst; assumption.
  - intro Hin. exists n. split; [assumption | apply String.eqb_refl].
Qed.

Lemma name_identifies_one_rangeb_sound n :
  name_identifies_one_rangeb n = true -> name_identifies_one_range n.
Proof.
  unfold name_identifies_one_rangeb, name_identifies_one_range.
  destruct (declared_ranges n) as [|r t]; [intros _ r1 r2 []|].
  rewrite forallb_forall. intro Hall.
  assert (Heq : forall x, In x (r :: t) -> x = r).
  { intros [a b] [<- | Hin]; [reflexivity|].
    specialize (Hall _ Hin). simpl in Hall.
    apply andb_true_iff in Hall as [Ha Hb].
    apply Z.eqb_eq in Ha, Hb. destruct r; simpl in *; congruence. }
  intros r1 r2 H1 H2. rewrite (Heq _ H1), (Heq _ H2). reflexivity.
Qed.

(** ** The framing constants *)

(** C5: a string is the 30 time-mark bits plus the 85 data bits, 115 in all;
    the preamble is 30 bits long; a frame is 15 strings, 1725 bits. *)
Theorem framing_sizes_agree :
  GLONASS_GNAV_STRING_BITS = 30 + 85
  /\ GLONASS_GNAV_STRING_BITS = 115
  /\ GLONASS_CA_PREAMBLE_LENGTH_BITS = 30
  /\ GLONASS_GNAV_STRING_BITS
     = GLONASS_CA_PREAMBLE_LENGTH_BITS + GNAV_DATA_BITS_PER_STRING
  /\ GLONASS_GNAV_FRAME_BITS = 15 * GLONASS_GNAV_STRING_BITS
  /\ GLONASS_GNAV_FRAME_BITS = 1725.
Proof. repeat split. Qed.

(** C6, as the claim states it, fails: 1725 bits are not what 50 bits/s
    deliver in the declared 30 seconds. *)
Lemma frame_bits_not_rate_times_seconds :
  ~ (GLONASS_GNAV_FRAME_BITS
     = GLONASS_CA_TELEMETRY_RATE_BITS_SECOND * GLONASS_GNAV_FRAME_SECONDS
     /\ GLONASS_GNAV_FRAME_MS = 1000 * GLONASS_GNAV_FRAME_SECONDS).
Proof. intros [H _]. discriminate H. Qed.

(** C6 (amended): the two duration constants agree with each other
    (milliseconds are 1000 times the seconds), while the frame size is larger
    than the bit rate times the duration: 50 bits/s for 30 s is 1500 bits,
    and the 1725 bits of a frame would take 34.5 s at that rate. *)
Theorem frame_timing_constants :
  GLONASS_GNAV_FRAME_MS = 1000 * GLONASS_GNAV_FRAME_SECONDS
  /\ GLONASS_CA_TELEMETRY_RATE_BITS_SECOND * GLONASS_GNAV_FRAME_SECONDS = 1500
  /\ GLONASS_CA_TELEMETRY_RATE_BITS_SECOND * GLONASS_GNAV_FRAME_SECONDS
     < GLONASS_GNAV_FRAME_BITS
  /\ 2 * GLONASS_GNAV_FRAME_BITS = 69 * GLONASS_CA_TELEMETRY_RATE_BITS_SECOND
  /\ PrimFloat.div (double_of_int GLONASS_GNAV_FRAME_BITS)
       (double_of_int GLONASS_CA_TELEMETRY_RATE_BITS_SECOND)
     = 34.5%float.
Proof. repeat split. Qed.

(** How the header's own numbers do add up to 30 s: per string, the 85 data
    bits at 50 bits/s and the declared duration of the time mark; 15 strings
    of that make the frame duration (computed in binary64). *)
Remark frame_seconds_from_data_bits_and_time_mark :
  PrimFloat.mul (double_of_int GNAV_STRINGS_PER_FRAME)
    (PrimFloat.add
       (PrimFloat.div (double_of_int GNAV_DATA_BITS_PER_STRING)
          (double_of_int GLONASS_CA_TELEMETRY_RATE_BITS_SECOND))
       GLONASS_CA_PREAMBLE_DURATION_S)
  = double_of_int GLONASS_GNAV_FRAME_SECONDS.
Proof. reflexivity. Qed.

(** ** The preamble *)

(** Two binary64 values that the comparison tells apart are different. *)
Lemma float_neq_by_eqb (x y : float) :
  PrimFloat.eqb y y = true -> PrimFloat.eqb x y = false -> x <> y.
Proof. intros Hyy Hxy ->. congruence. Qed.

Lemma GLONASS_CA_PREAMBLE_binary :
  Forall (fun b => b = 0 \/ b = 1) GLONASS_CA_PREAMBLE.
Proof.
  unfold GLONASS_CA_PREAMBLE.
  repeat (apply Forall_cons; [lia|]). apply Forall_nil.
Qed.

(** C7, as the claim states it, fails in its last part: the declared
    duration 0.3 is not the number of preamble symbols divided by the declared
    symbol rate, neither as a quotient of doubles (0.6) nor as the C++
    quotient of the two [int] constants (0). *)
Lemma preamble_duration_not_symbols_over_rate :
  GLONASS_CA_PREAMBLE_DURATION_S
  <> PrimFloat.div (double_of_int GLONASS_CA_PREAMBLE_LENGTH_SYMBOLS)
       (double_of_int GLONASS_CA_TELEMETRY_RATE_SYMBOLS_SECOND)
  /\ GLONASS_CA_PREAMBLE_DURATION_S
     <> double_of_int (Z.quot GLONASS_CA_PREAMBLE_LENGTH_SYMBOLS
                         GLONASS_CA_TELEMETRY_RATE_SYMBOLS_SECOND).
Proof. split; apply float_neq_by_eqb; reflexivity. Qed.

(** C7 (amended): the preamble lists 30 values, each 0 or 1; its length in
    symbols is its length in bits times the symbols per bit, 300; the declared
    duration 0.3 s is the 300 symbols times the 1 ms code period, which is
    half of symbols divided by the declared symbol rate (300 / 500 = 0.6). *)
Theorem preamble_constants :
  Z.of_nat (List.length GLONASS_CA_PREAMBLE) = 30
  /\ Z.of_nat (List.length GLONASS_CA_PREAMBLE) = GLONASS_CA_PREAMBLE_LENGTH_BITS
  /\ Forall (fun b => b = 0 \/ b = 1) GLONASS_CA_PREAMBLE
  /\ GLONASS_CA_PREAMBLE_LENGTH_SYMBOLS
     = GLONASS_CA_PREAMBLE_LENGTH_BITS * GLONASS_CA_TELEMETRY_SYMBOLS_PER_BIT
  /\ GLONASS_CA_PREAMBLE_LENGTH_SYMBOLS = 300
  /\ GLONASS_CA_TELEMETRY_RATE_SYMBOLS_SECOND = 500
  /\ PrimFloat.div (double_of_int GLONASS_CA_PREAMBLE_LENGTH_SYMBOLS)
       (double_of_int GLONASS_CA_TELEMETRY_RATE_SYMBOLS_SECOND)
     = PrimFloat.mul (double_of_int 2) GLONASS_CA_PREAMBLE_DURATION_S
  /\ GLONASS_CA_PREAMBLE_DURATION_S
     = PrimFloat.mul (double_of_int GLONASS_CA_PREAMBLE_LENGTH_SYMBOLS)
         GLONASS_L1_CA_CODE_PERIOD
  /\ PrimFloat.div (double_of_int GLONASS_CA_PREAMBLE_LENGTH_SYMBOLS)
       (double_of_int GLONASS_CA_TELEMETRY_RATE_SYMBOLS_SECOND)
     = 0.6%float.
Proof.
  repeat (split; [first [reflexivity | apply GLONASS_CA_PREAMBLE_binary]|]).
  reflexivity.
Qed.

(** ** The flattening constant *)

(** C10: [1/29825784] is a quotient of two [int] literals, which truncates to
    0, so the [double] constant GLONASS_FLATTENING is exactly 0.0. *)
Theorem GLONASS_FLATTENING_is_zero :
  GLONASS_FLATTENING_int_expr = 0
  /\ GLONASS_FLATTENING = double_of_int 0
  /\ GLONASS_FLATTENING = 0%float.
Proof. repeat split. Qed.

(** ** The field tables *)

(** C2, as the claim states it, fails: the string-5 table has no entry for
    N_T, so not all four TimeState fields are carried by string 5. *)
Lemma string_5_lacks_N_T :
  ~ Forall (class_carries Class_5) TimeState_fields.
Proof.
  intro H. rewrite Forall_forall in H.
  assert (Hc : class_carries Class_5 "N_T") by (apply H; simpl; auto).
  apply class_carriesb_iff in Hc. discriminate Hc.
Qed.

(** C2 (amended): string 5 carries three of the four TimeState fields, N_4 at
    (50,5), TAU_C at (17,32) and TAU_GPS at (55,22); the fourth, N_T, is
    declared at (60,11) in the string-4 table and in no other class, so the
    four fields come from strings 4 and 5 together. *)
Theorem time_fields_in_strings_4_and_5 :
  In (Decl "N_4" [(50, 5)]) (own_fields Class_5)
  /\ In (Decl "TAU_C" [(17, 32)]) (own_fields Class_5)
  /\ In (Decl "TAU_GPS" [(55, 22)]) (own_fields Class_5)
  /\ Forall (class_carries Class_5) ["N_4"; "TAU_C"; "TAU_GPS"]
  /\ ~ class_carries Class_5 "N_T"
  /\ In (Decl "N_T" [(60, 11)]) (own_fields Class_4)
  /\ filter (fun c => class_carriesb c "N_T") all_classes = [Class_4]
  /\ Forall (fun n => class_carries Class_4 n \/ class_carries Class_5 n)
       TimeState_fields.
Proof.
  repeat split; try (simpl; tauto).
  - repeat (apply Forall_cons; [apply class_carriesb_iff; reflexivity|]).
    apply Forall_nil.
  - intro Hc. apply class_carriesb_iff in Hc. discriminate Hc.
  - unfold TimeState_fields.
    repeat (apply Forall_cons;
            [first [left; apply class_carriesb_iff; reflexivity
                   | right; apply class_carriesb_iff; reflexivity]|]).
    apply Forall_nil.
Qed.

(** C3: every string class has exactly one KX entry, the common 8-bit field
    at bits 78..85, and no range of any other field of the class meets the KX
    range. *)
Theorem KX_disjoint_from_data_fields :
  forall c : string_class,
    filter is_KX (class_fields c) = [Decl "KX" [(78, 8)]]
    /\ COMMON.KX = [(78, 8)]
    /\ range_first (78, 8) = 78 /\ range_last (78, 8) = 85
    /\ range_length (78, 8) = 8
    /\ Forall (fun r => ranges_disjoint r (78, 8)) (ranges_of (data_fields c))
    /\ Forall (fun r => range_last r < 78) (ranges_of (data_fields c)).
Proof.
  intro c.
  assert (Hlt : Forall (fun r => range_last r < 78) (ranges_of (data_fields c))).
  { destruct c; cbv [ranges_of data_fields class_fields common_fields
                       own_fields filter is_KX fd_name fd_desc negb flat_map
                       app];
      simpl; repeat (apply Forall_cons; [reflexivity|]); apply Forall_nil. }
  repeat split; try (destruct c; reflexivity); try exact Hlt.
  eapply Forall_impl; [|exact Hlt].
  intros r Hr. left. exact Hr.
Qed.

(** The string numbers 1..15 are exactly those that some heading lists. *)
Lemma string_class_of_id_defined id :
  1 <= id <= 15 -> exists c, string_class_of_id id = Some c.
Proof.
  intro H.
  assert (Hcases : id = 1 \/ id = 2 \/ id = 3 \/ id = 4 \/ id = 5 \/ id = 6
                   \/ id = 7 \/ id = 8 \/ id = 9 \/ id = 10 \/ id = 11
                   \/ id = 12 \/ id = 13 \/ id = 14 \/ id = 15) by lia.
  repeat (destruct Hcases as [-> | Hcases]; [eexists; reflexivity|]).
  subst. eexists; reflexivity.
Qed.

(** C4: STRING_ID is declared once, at offset 2 with length 4, and belongs to
    every string class; every string number 1..15 fits in those 4 bits and
    selects a class. *)
Theorem STRING_ID_dispatch_well_defined :
  forall (c : string_class) (id : Z),
    1 <= id <= 15 ->
    declarations_named "STRING_ID" = [Decl "STRING_ID" [(2, 4)]]
    /\ In (Decl "STRING_ID" [(2, 4)]) (class_fields c)
    /\ 0 <= id < 2 ^ range_length (2, 4)
    /\ exists c', string_class_of_id id = Some c'.
Proof.
  intros c id Hid. split; [reflexivity|].
  split; [destruct c; simpl; auto|].
  split; [unfold range_length; simpl; lia|].
  apply string_class_of_id_defined; assumption.
Qed.

Lemma STRING_ID_dispatch_witness :
  1 <= 15 <= 15
  /\ (declarations_named "STRING_ID" = [Decl "STRING_ID" [(2, 4)]]
      /\ In (Decl "STRING_ID" [(2, 4)]) (class_fields Class_7_9_11_13_15)
      /\ 0 <= 15 < 2 ^ range_length (2, 4)
      /\ exists c', string_class_of_id 15 = Some c').
Proof.
  split; [lia|].
  apply (STRING_ID_dispatch_well_defined Class_7_9_11_13_15 15); lia.
Defined.

(** C8: for every field of every string class, writing a value that fits in
    the field's length into its bit range of a 115-bit string and reading the
    range back gives the value written. *)
Theorem field_table_round_trip :
  forall (c : string_class) (d : field_decl) (r : field_range)
         (s : RawString) (v : Z),
    In d (class_fields c) ->
    In r (fd_desc d) ->
    Z.of_nat (List.length s) = GLONASS_GNAV_STRING_BITS ->
    0 <= v < 2 ^ range_length r ->
    extract_field (insert_field s r v) r = v.
Proof.
  intros c d r s v Hd Hr Hlen Hv.
  apply extract_insert_field; [|assumption].
  pose proof (class_ranges_within_data c) as Hall.
  rewrite Forall_forall in Hall.
  apply range_within_mono with (w := GNAV_DATA_BITS_PER_STRING).
  - rewrite Hlen. unfold GNAV_DATA_BITS_PER_STRING, GLONASS_GNAV_STRING_BITS. lia.
  - apply Hall. eapply in_class_ranges; eassumption.
Qed.

Lemma field_table_round_trip_witness :
  In (Decl "TAU_C" STRING_5.TAU_C) (class_fields Class_5)
  /\ In (17, 32) (fd_desc (Decl "TAU_C" STRING_5.TAU_C))
  /\ Z.of_nat (List.length (repeat true 115)) = GLONASS_GNAV_STRING_BITS
  /\ 0 <= 3735928559 < 2 ^ range_length (17, 32)
  /\ extract_field (insert_field (repeat true 115) (17, 32) 3735928559) (17, 32)
     = 3735928559.
Proof.
  assert (H1 : In (Decl "TAU_C" STRING_5.TAU_C) (class_fields Class_5))
    by (simpl; tauto).
  assert (H2 : In (17, 32) (fd_desc (Decl "TAU_C" STRING_5.TAU_C)))
    by (simpl; tauto).
  assert (H3 : Z.of_nat (List.length (repeat true 115)) = GLONASS_GNAV_STRING_BITS)
    by reflexivity.
  assert (H4 : 0 <= 3735928559 < 2 ^ range_length (17, 32))
    by (unfold range_length; simpl; lia).
  repeat (split; [assumption|]).
  exact (field_table_round_trip Class_5 _ (17, 32) (repeat true 115) 3735928559
           H1 H2 H3 H4).
Defined.

(** C9: the identifier L_N is declared three times, at (21,1) for string 3
    and at (77,1) for string 5 and for strings 7, 9, 11, 13, 15, so it does
    not identify one bit range; every other identifier of the header does. *)
Theorem L_N_declared_at_two_positions :
  declared_ranges "L_N" = [(21, 1); (77, 1); (77, 1)]
  /\ filter (fun c => class_carriesb c "L_N") all_classes
     = [Class_3; Class_5; Class_7_9_11_13_15]
  /\ ~ name_identifies_one_range "L_N"
  /\ Forall (fun d => fd_name d = "L_N"
                      \/ name_identifies_one_range (fd_name d))
       declared_fields.
Proof.
  split; [reflexivity|]. split; [reflexivity|]. split.
  - intro H. specialize (H (21, 1) (77, 1)).
    assert (Heq : (21, 1) = (77, 1)) by (apply H; simpl; tauto).
    discriminate Heq.
  - apply Forall_forall. intros d Hin.
    assert (Hb : forallb (fun d => String.eqb (fd_name d) "L_N"
                           || name_identifies_one_rangeb (fd_name d))
                   declared_fields = true) by (vm_compute; reflexivity).
    rewrite forallb_forall in Hb. specialize (Hb d Hin).
    apply orb_true_iff in Hb as [Hb | Hb].
    + left. apply String.eqb_eq. exact Hb.
    + right. apply name_identifies_one_rangeb_sound. exact Hb.
Qed.

(** ** Worked values *)

Example string_class_of_id_0 : string_class_of_id 0 = None.
Proof. reflexivity. Qed.

Example string_class_of_id_12 : string_class_of_id 12 = Some Class_6_8_10_12_14.
Proof. reflexivity. Qed.

Example string_class_of_id_16 : string_class_of_id 16 = None.
Proof. reflexivity. Qed.

Example insert_STRING_ID_5 :
  insert_field (repeat false 8) (2, 4) 5
  = [false; false; true; false; true; false; false; false].
Proof. reflexivity. Qed.

Example extract_STRING_ID_5 :
  extract_field [false; false; true; false; true; false; false; false] (2, 4) = 5.
Proof. reflexivity. Qed.

Example L_N_positions_differ :
  STRING_3.L_N <> STRING_5.L_N /\ STRING_5.L_N = STRING_7_9_11_13_15.L_N.
Proof. split; [discriminate | reflexivity]. Qed.

(** * Further properties of the header *)

(** ** Dispatch on the string number *)




(** ** Where the fields of a class lie *)

(** The fields a class declares for itself lie in bits 6..77: after the
    common STRING_ID (bits 2..5) and before the common KX (bits 78..85), so
    the string number can be read before the layout is known. *)
Theorem own_fields_between_STRING_ID_and_KX :
  forall c : string_class,
    Forall (fun r => Forall (fun id => range_last id < range_first r)
                       COMMON.STRING_ID
                     /\ 6 <= range_first r
                     /\ range_last r <= 77
                     /\ Forall (fun kx => range_last r < range_first kx)
                          COMMON.KX)
      (ranges_of (own_fields c)).
Proof.
  intro c. apply Forall_forall. intros r Hin.
  assert (Hb : forallb (fun r => (6 <=? range_first r) && (range_last r <=? 77))
                 (ranges_of (own_fields c)) = true)
    by (destruct c; reflexivity).
  rewrite forallb_forall in Hb. specialize (Hb r Hin).
  apply andb_true_iff in Hb as [H6 H77].
  apply Z.leb_le in H6, H77.
  unfold COMMON.STRING_ID, COMMON.KX.
  repeat split; try assumption;
    repeat constructor; unfold range_last, range_first in *; simpl; lia.
Qed.

(** Membership in [unassigned_positions], spelled out. *)
Lemma unassigned_positions_spec c p :
  In p (unassigned_positions c)
  <-> 1 <= p <= 85
      /\ forall r, In r (class_ranges c) ->
                   ~ (range_first r <= p <= range_last r).
Proof.
  unfold unassigned_positions, data_bit_positions, cover_count.
  rewrite filter_In, in_map_iff, Nat.eqb_eq, length_zero_iff_nil.
  split.
  - intros [(n & <- & Hn) Hnil]. apply in_seq in Hn.
    split; [unfold GNAV_DATA_BITS_PER_STRING in Hn; lia|].
    intros r Hr Hcov.
    assert (Hin : In r (filter (fun r0 => covers r0 (Z.of_nat n))
                          (class_ranges c))).
    { apply filter_In. split; [assumption|].
      unfold covers. apply andb_true_iff. rewrite !Z.leb_le. exact Hcov. }
    rewrite Hnil in Hin. exact Hin.
  - intros [Hp Hnone]. split.
    + exists (Z.to_nat p). split; [lia|].
      apply in_seq. unfold GNAV_DATA_BITS_PER_STRING. lia.
    + destruct (filter (fun r => covers r p) (class_ranges c)) as [|r t] eqn:E;
        [reflexivity|].
      assert (Hin : In r (filter (fun r => covers r p) (class_ranges c)))
        by (rewrite E; left; reflexivity).
      apply filter_In in Hin as [Hr Hcov].
      unfold covers in Hcov. apply andb_true_iff in Hcov.
      rewrite !Z.leb_le in Hcov. exfalso. exact (Hnone r Hr Hcov).
Qed.

(** The data bits that the tables leave without a field: bit 1 in every
    class, and besides it bits 6-7 of string 1, 17-21 of string 2, 18 of
    string 3, 38-51 and 57-59 of string 4 and 49 of string 5; the two almanac
    tables leave no other bit. *)
Theorem unassigned_data_bits :
  unassigned_positions Class_1 = [1; 6; 7]
  /\ unassigned_positions Class_2 = [1; 17; 18; 19; 20; 21]
  /\ unassigned_positions Class_3 = [1; 18]
  /\ unassigned_positions Class_4
     = [1; 38; 39; 40; 41; 42; 43; 44; 45; 46; 47; 48; 49; 50; 51; 57; 58; 59]
  /\ unassigned_positions Class_5 = [1; 49]
  /\ unassigned_positions Class_6_8_10_12_14 = [1]
  /\ unassigned_positions Class_7_9_11_13_15 = [1].
Proof. repeat split; vm_compute; reflexivity. Qed.

(** In both almanac tables every bit 2..85 belongs to exactly one field. *)
Theorem almanac_tables_tile_bits_2_to_85 :
  forall p : Z,
    2 <= p <= 85 ->
    cover_count Class_6_8_10_12_14 p = 1%nat
    /\ cover_count Class_7_9_11_13_15 p = 1%nat.
Proof.
  intros p Hp.
  assert (Hb : forallb (fun n => Nat.eqb (cover_count Class_6_8_10_12_14
                                            (Z.of_nat n)) 1
                                 && Nat.eqb (cover_count Class_7_9_11_13_15
                                               (Z.of_nat n)) 1)
                 (seq 2 84) = true) by (vm_compute; reflexivity).
  rewrite forallb_forall in Hb.
  specialize (Hb (Z.to_nat p)). rewrite Z2Nat.id in Hb by lia.
  assert (Hin : In (Z.to_nat p) (seq 2 84)) by (apply in_seq; lia).
  apply Hb in Hin. apply andb_true_iff in Hin as [He Ho].
  apply Nat.eqb_eq in He, Ho. split; assumption.
Qed.

Lemma almanac_tables_tile_witness :
  2 <= 44 <= 85
  /\ (cover_count Class_6_8_10_12_14 44 = 1%nat
      /\ cover_count Class_7_9_11_13_15 44 = 1%nat).
Proof. split; [lia | apply (almanac_tables_tile_bits_2_to_85 44); lia]. Defined.

(** No field is longer than 32 bits, and TAU_C of string 5 is the only one
    that long, so every field fits an unsigned 32-bit integer. *)
Theorem field_lengths_at_most_32 :
  Forall (fun r => range_length r <= 32) (ranges_of declared_fields)
  /\ filter (fun d => existsb (fun r => 32 <=? range_length r) (fd_desc d))
       declared_fields
     = [Decl "TAU_C" [(17, 32)]].
Proof.
  split; [|reflexivity].
  apply Forall_forall. intros r Hin.
  assert (Hb : forallb (fun r => range_length r <=? 32)
                 (ranges_of declared_fields) = true) by reflexivity.
  rewrite forallb_forall in Hb. apply Z.leb_le. apply Hb. exact Hin.
Qed.

(** ** Sizes in bytes *)

(** GLONASS_GNAV_FRAME_LENGTH is ten words of GLONASS_GNAV_WORD_LENGTH
    bytes, as its comment says, which is 320 bits: less than a frame and not
    what a string needs either; neither the 115 bits of a string nor the 1725
    bits of a frame are a whole number of bytes, as the note on
    GLONASS_GNAV_WORD_LENGTH suspects. *)
Theorem byte_lengths_do_not_fit_gnav_framing :
  GLONASS_GNAV_FRAME_LENGTH = 10 * GLONASS_GNAV_WORD_LENGTH
  /\ 8 * GLONASS_GNAV_FRAME_LENGTH = 320
  /\ 8 * GLONASS_GNAV_FRAME_LENGTH < GLONASS_GNAV_FRAME_BITS
  /\ GLONASS_GNAV_STRING_BITS mod 8 = 3
  /\ GLONASS_GNAV_FRAME_BITS mod 8 = 5
  /\ GLONASS_GNAV_STRING_BITS mod (8 * GLONASS_GNAV_WORD_LENGTH) <> 0
  /\ GLONASS_GNAV_FRAME_BITS mod (8 * GLONASS_GNAV_WORD_LENGTH) <> 0.
Proof. repeat split; discriminate. Qed.

(** ** Relations between the double constants (binary64 arithmetic) *)

(** GLONASS_TWO_PI is not twice GLONASS_PI: the two literals carry different
    numbers of digits, and 2 * GLONASS_PI is the larger value. *)
Theorem GLONASS_TWO_PI_is_not_twice_GLONASS_PI :
  PrimFloat.mul (double_of_int 2) GLONASS_PI <> GLONASS_TWO_PI
  /\ PrimFloat.ltb GLONASS_TWO_PI (PrimFloat.mul (double_of_int 2) GLONASS_PI)
     = true.
Proof. split; [apply float_neq_by_eqb; reflexivity | reflexivity]. Qed.

(** The code period is exactly the code length divided by the code rate
    (511 chips at 0.511 Mchip/s is 1 ms), but the declared chip period is
    rounded down: it is below one over the code rate, and 511 chip periods
    fall short of the code period. *)
Theorem code_period_and_chip_period :
  PrimFloat.div GLONASS_L1_CA_CODE_LENGTH_CHIPS GLONASS_L1_CA_CODE_RATE_HZ
  = GLONASS_L1_CA_CODE_PERIOD
  /\ PrimFloat.mul GLONASS_L1_CA_CODE_RATE_HZ GLONASS_L1_CA_CODE_PERIOD
     = GLONASS_L1_CA_CODE_LENGTH_CHIPS
  /\ PrimFloat.ltb GLONASS_L1_CA_CHIP_PERIOD
       (PrimFloat.div (double_of_int 1) GLONASS_L1_CA_CODE_RATE_HZ) = true
  /\ PrimFloat.ltb
       (PrimFloat.mul GLONASS_L1_CA_CHIP_PERIOD GLONASS_L1_CA_CODE_LENGTH_CHIPS)
       GLONASS_L1_CA_CODE_PERIOD = true.
Proof. repeat split. Qed.

(** The semi-major axis in metres is exactly 1000 times the equatorial
    radius in kilometres. *)
Theorem semi_major_axis_is_earth_radius_in_metres :
  PrimFloat.mul GLONASS_EARTH_RADIUS (double_of_int 1000)
  = GLONASS_SEMI_MAJOR_AXIS.
Proof. reflexivity. Qed.

(** One string takes 2 s: its 85 data bits at the telemetry bit rate and the
    declared duration of the preamble. *)
Theorem string_duration_is_two_seconds :
  PrimFloat.add
    (PrimFloat.div (double_of_int GNAV_DATA_BITS_PER_STRING)
       (double_of_int GLONASS_CA_TELEMETRY_RATE_BITS_SECOND))
    GLONASS_CA_PREAMBLE_DURATION_S
  = double_of_int 2
  /\ PrimFloat.mul (double_of_int GNAV_STRINGS_PER_FRAME) (double_of_int 2)
     = double_of_int GLONASS_GNAV_FRAME_SECONDS
  /\ GNAV_STRINGS_PER_FRAME * 2 * 1000 = GLONASS_GNAV_FRAME_MS.
Proof. repeat split. Qed.

(** ** The preamble pattern *)



(** Shifted against itself by any 1..29 positions, the preamble correlates
    to at most 5 in magnitude over the overlap, against 30 at shift 0: a
    misaligned window cannot look like the time mark. *)
Theorem preamble_autocorrelation_sidelobes :
  forall k : nat,
    (1 <= k < List.length GLONASS_CA_PREAMBLE)%nat ->
    Z.abs (preamble_autocorrelation k) <= 5
    /\ preamble_autocorrelation 0 = 30.
Proof.
  intros k Hk. split; [|reflexivity].
  assert (Hb : forallb (fun k => Z.abs (preamble_autocorrelation k) <=? 5)
                 (seq 1 29) = true) by (vm_compute; reflexivity).
  rewrite forallb_forall in Hb. apply Z.leb_le, Hb, in_seq.
  simpl in Hk. lia.
Qed.

Lemma preamble_autocorrelation_witness :
  (1 <= 7 < List.length GLONASS_CA_PREAMBLE)%nat
  /\ (Z.abs (preamble_autocorrelation 7) <= 5
      /\ preamble_autocorrelation 0 = 30).
Proof.
  split; [simpl; lia | apply (preamble_autocorrelation_sidelobes 7); simpl; lia].
Defined.

(** ** Fields of one string do not interfere *)

Lemma bits_value_bounds bs : forall acc,
  0 <= acc ->
  acc * 2 ^ Z.of_nat (List.length bs) <= bits_value acc bs
  < (acc + 1) * 2 ^ Z.of_nat (List.length bs).
Proof.
  induction bs as [|b t IH]; intros acc Hacc.
  - simpl. lia.
  - cbn [bits_value List.length].
    rewrite Nat2Z.inj_succ, Z.pow_succ_r by lia.
    assert (Hb : 0 <= Z.b2z b <= 1) by (destruct b; simpl; lia).
    specialize (IH (2 * acc + Z.b2z b) ltac:(lia)).
    assert (0 < 2 ^ Z.of_nat (List.length t)) by (apply Z.pow_pos_nonneg; lia).
    nia.
Qed.

Lemma extract_field_bounds (s : RawString) (r : field_range) :
  0 <= range_length r ->
  0 <= extract_field s r < 2 ^ range_length r.
Proof.
  intro Hl. unfold extract_field.
  set (bs := firstn _ _).
  pose proof (bits_value_bounds bs 0 ltac:(lia)) as Hb.
  assert (Hlen : Z.of_nat (List.length bs) <= range_length r).
  { subst bs. rewrite length_firstn. lia. }
  assert (2 ^ Z.of_nat (List.length bs) <= 2 ^ range_length r)
    by (apply Z.pow_le_mono_r; lia).
  lia.
Qed.

(** Outside the range written, [insert_field] leaves every position as it
    was. *)
Lemma nth_error_insert_field_outside (s : RawString) r v (i : nat) :
  range_within (Z.of_nat (List.length s)) r ->
  Z.of_nat i < range_first r - 1 \/ range_last r <= Z.of_nat i ->
  nth_error (insert_field s r v) i = nth_error s i.
Proof.
  intros (Hf & Hl & Hw) Hi.
  unfold insert_field, range_last, range_first, range_length in *.
  set (a := Z.to_nat (fst r - 1)). set (n := Z.to_nat (snd r)).
  assert (Ha : (a + n <= List.length s)%nat) by lia.
  destruct Hi as [Hi | Hi].
  - rewrite nth_error_app1 by (rewrite length_firstn; lia).
    rewrite nth_error_firstn.
    destruct (Nat.ltb_spec i a); [reflexivity | lia].
  - rewrite nth_error_app2 by (rewrite length_firstn; lia).
    rewrite nth_error_app2
      by (rewrite length_firstn, length_value_bits; lia).
    rewrite nth_error_skipn, length_firstn, length_value_bits.
    f_equal. lia.
Qed.

Lemma skipn_unfold_nth_error {A} (l : list A) : forall b,
  skipn b l = match nth_error l b with
              | Some x => x :: skipn (S b) l
              | None => []
              end.
Proof.
  induction l as [|x t IH]; intros [|b]; try reflexivity.
  cbn [skipn nth_error]. rewrite IH. destruct (nth_error t b); reflexivity.
Qed.

(** A slice is determined by the positions it spans. *)
Lemma firstn_skipn_ext {A} (l l' : list A) (m : nat) : forall b,
  (forall i, (b <= i < b + m)%nat -> nth_error l i = nth_error l' i) ->
  firstn m (skipn b l) = firstn m (skipn b l').
Proof.
  induction m as [|m IH]; intros b Hext; [reflexivity|].
  rewrite (skipn_unfold_nth_error l b), (skipn_unfold_nth_error l' b).
  rewrite (Hext b) by lia.
  destruct (nth_error l' b); [|reflexivity].
  cbn [firstn]. f_equal. apply IH. intros i Hi. apply Hext. lia.
Qed.

Lemma extract_insert_field_other (s : RawString) r1 r2 v :
  range_within (Z.of_nat (List.length s)) r1 ->
  1 <= range_first r2 ->
  ranges_disjoint r1 r2 ->
  extract_field (insert_field s r1 v) r2 = extract_field s r2.
Proof.
  intros Hw1 Hf2 Hdis. unfold extract_field. f_equal.
  apply firstn_skipn_ext. intros i Hi.
  apply nth_error_insert_field_outside; [assumption|].
  unfold ranges_disjoint, range_last, range_first, range_length in *.
  destruct (Z.le_gt_cases 0 (snd r2)); lia.
Qed.

(** Two different ranges of one class are disjoint. *)
Lemma distinct_class_ranges_disjoint c r1 r2 :
  In r1 (class_ranges c) -> In r2 (class_ranges c) -> r1 <> r2 ->
  ranges_disjoint r1 r2.
Proof.
  intros H1 H2 Hneq.
  pose proof (class_ranges_pairwise_disjoint c) as Hpair.
  induction Hpair as [|r l Hr Hl IH]; [destruct H1|].
  rewrite Forall_forall in Hr.
  destruct H1 as [<- | H1], H2 as [<- | H2].
  - congruence.
  - apply Hr; assumption.
  - specialize (Hr _ H1). unfold ranges_disjoint in *. tauto.
  - apply IH; assumption.
Qed.

Lemma nth_error_insert_field_inside (s : RawString) r v (i : nat) :
  range_within (Z.of_nat (List.length s)) r ->
  range_first r - 1 <= Z.of_nat i < range_last r ->
  nth_error (insert_field s r v) i
  = nth_error (value_bits (Z.to_nat (range_length r)) v)
      (i - Z.to_nat (range_first r - 1)).
Proof.
  intros (Hf & Hl & Hw) Hi.
  unfold insert_field, range_last, range_first, range_length in *.
  rewrite nth_error_app2 by (rewrite length_firstn; lia).
  rewrite length_firstn, Nat.min_l by lia.
  rewrite nth_error_app1 by (rewrite length_value_bits; lia).
  reflexivity.
Qed.

Lemma class_range_within_string c r (s : RawString) :
  In r (class_ranges c) ->
  Z.of_nat (List.length s) = GLONASS_GNAV_STRING_BITS ->
  range_within (Z.of_nat (List.length s)) r.
Proof.
  intros Hin Hlen.
  pose proof (class_ranges_within_data c) as Hall.
  rewrite Forall_forall in Hall.
  apply range_within_mono with (w := GNAV_DATA_BITS_PER_STRING);
    [|apply Hall; assumption].
  rewrite Hlen. unfold GNAV_DATA_BITS_PER_STRING, GLONASS_GNAV_STRING_BITS. lia.
Qed.

(** With the bit-range access modelled for the decoder: whatever a string
    holds, each field of the tables decodes to a value below two to its
    length, hence below 2^32. *)
Theorem decoded_field_fits_32_bits :
  forall (c : string_class) (s : RawString),
    Forall (fun r => 0 <= extract_field s r < 2 ^ range_length r
                     /\ extract_field s r < 2 ^ 32)
      (class_ranges c).
Proof.
  intros c s. apply Forall_forall. intros r Hin.
  pose proof (class_ranges_within_data c) as Hall.
  rewrite Forall_forall in Hall. destruct (Hall r Hin) as (_ & Hl & _).
  assert (Hb : forallb (fun r => range_length r <=? 32) (class_ranges c) = true)
    by (destruct c; reflexivity).
  rewrite forallb_forall in Hb. specialize (Hb r Hin). apply Z.leb_le in Hb.
  pose proof (extract_field_bounds s r ltac:(lia)) as He.
  assert (2 ^ range_length r <= 2 ^ 32) by (apply Z.pow_le_mono_r; lia).
  lia.
Qed.

(** With the bit-range access modelled for the decoder: writing one field of
    a class into a 115-bit string changes the decoded value of no other field
    of that class, whatever value is written. *)
Theorem insert_field_preserves_other_fields :
  forall (c : string_class) (r1 r2 : field_range) (s : RawString) (v : Z),
    In r1 (class_ranges c) ->
    In r2 (class_ranges c) ->
    r1 <> r2 ->
    Z.of_nat (List.length s) = GLONASS_GNAV_STRING_BITS ->
    extract_field (insert_field s r1 v) r2 = extract_field s r2.
Proof.
  intros c r1 r2 s v H1 H2 Hneq Hlen.
  apply extract_insert_field_other.
  - eapply class_range_within_string; eassumption.
  - pose proof (class_ranges_within_data c) as Hall.
    rewrite Forall_forall in Hall. apply (Hall r2 H2).
  - eapply distinct_class_ranges_disjoint; eassumption.
Qed.

Lemma insert_field_preserves_other_fields_witness :
  In (6, 11) (class_ranges Class_5)
  /\ In (17, 32) (class_ranges Class_5)
  /\ (6, 11) <> (17, 32)
  /\ Z.of_nat (List.length (repeat true 115)) = GLONASS_GNAV_STRING_BITS
  /\ extract_field (insert_field (repeat true 115) (6, 11) 100) (17, 32)
     = extract_field (repeat true 115) (17, 32).
Proof.
  assert (H1 : In (6, 11) (class_ranges Class_5)) by (simpl; tauto).
  assert (H2 : In (17, 32) (class_ranges Class_5)) by (simpl; tauto).
  assert (H3 : (6, 11) <> (17, 32)) by discriminate.
  assert (H4 : Z.of_nat (List.length (repeat true 115))
               = GLONASS_GNAV_STRING_BITS) by reflexivity.
  repeat (split; [assumption|]).
  exact (insert_field_preserves_other_fields Class_5 (6, 11) (17, 32)
           (repeat true 115) 100 H1 H2 H3 H4).
Defined.

(** With the bit-range access modelled for the decoder: two different fields
    of a class can be written in either order with the same resulting string,
    and both values are then read back. *)
Theorem insert_field_two_fields :
  forall (c : string_class) (r1 r2 : field_range) (s : RawString) (v1 v2 : Z),
    In r1 (class_ranges c) ->
    In r2 (class_ranges c) ->
    r1 <> r2 ->
    Z.of_nat (List.length s) = GLONASS_GNAV_STRING_BITS ->
    0 <= v1 < 2 ^ range_length r1 ->
    0 <= v2 < 2 ^ range_length r2 ->
    insert_field (insert_field s r1 v1) r2 v2
    = insert_field (insert_field s r2 v2) r1 v1
    /\ extract_field (insert_field (insert_field s r1 v1) r2 v2) r1 = v1
    /\ extract_field (insert_field (insert_field s r1 v1) r2 v2) r2 = v2.
Proof.
  intros c r1 r2 s v1 v2 H1 H2 Hneq Hlen Hv1 Hv2.
  pose proof (class_range_within_string c r1 s H1 Hlen) as W1.
  pose proof (class_range_within_string c r2 s H2 Hlen) as W2.
  pose proof (distinct_class_ranges_disjoint c r1 r2 H1 H2 Hneq) as Hdis.
  assert (W21 : range_within (Z.of_nat (List.length (insert_field s r1 v1))) r2)
    by (rewrite length_insert_field; assumption).
  assert (W12 : range_within (Z.of_nat (List.length (insert_field s r2 v2))) r1)
    by (rewrite length_insert_field; assumption).
  assert (W11 : range_within (Z.of_nat (List.length (insert_field s r1 v1))) r1)
    by (rewrite length_insert_field; assumption).
  split; [|split].
  - apply nth_error_ext. intro i.
    destruct W1 as (F1 & L1 & E1), W2 as (F2 & L2 & E2).
    assert (Hcase : (range_first r1 - 1 <= Z.of_nat i < range_last r1)
                    \/ (range_first r2 - 1 <= Z.of_nat i < range_last r2)
                    \/ ((Z.of_nat i < range_first r1 - 1
                         \/ range_last r1 <= Z.of_nat i)
                        /\ (Z.of_nat i < range_first r2 - 1
                            \/ range_last r2 <= Z.of_nat i))) by lia.
    unfold ranges_disjoint in Hdis.
    destruct Hcase as [In1 | [In2 | [Out1 Out2]]].
    + rewrite nth_error_insert_field_outside by (assumption || lia).
      rewrite !nth_error_insert_field_inside by (assumption || (repeat split; assumption)).
      reflexivity.
    + rewrite (nth_error_insert_field_outside (insert_field s r2 v2) r1)
        by (assumption || lia).
      rewrite !nth_error_insert_field_inside by (assumption || (repeat split; assumption)).
      reflexivity.
    + rewrite !nth_error_insert_field_outside
        by (assumption || (repeat split; assumption)).
      reflexivity.
  - rewrite extract_insert_field_other.
    + apply extract_insert_field; assumption.
    + assumption.
    + apply W11.
    + unfold ranges_disjoint in *. tauto.
  - apply extract_insert_field; assumption.
Qed.

Lemma insert_field_two_fields_witness :
  In (50, 5) (class_ranges Class_5)
  /\ In (55, 22) (class_ranges Class_5)
  /\ (50, 5) <> (55, 22)
  /\ Z.of_nat (List.length (repeat false 115)) = GLONASS_GNAV_STRING_BITS
  /\ 0 <= 7 < 2 ^ range_length (50, 5)
  /\ 0 <= 100 < 2 ^ range_length (55, 22)
  /\ (insert_field (insert_field (repeat false 115) (50, 5) 7) (55, 22) 100
      = insert_field (insert_field (repeat false 115) (55, 22) 100) (50, 5) 7
      /\ extract_field
           (insert_field (insert_field (repeat false 115) (50, 5) 7)
              (55, 22) 100) (50, 5) = 7
      /\ extract_field
           (insert_field (insert_field (repeat false 115) (50, 5) 7)
              (55, 22) 100) (55, 22) = 100).
Proof.
  assert (H1 : In (50, 5) (class_ranges Class_5)) by (simpl; tauto).
  assert (H2 : In (55, 22) (class_ranges Class_5)) by (simpl; tauto).
  assert (H3 : (50, 5) <> (55, 22)) by discriminate.
  assert (H4 : Z.of_nat (List.length (repeat false 115))
               = GLONASS_GNAV_STRING_BITS) by reflexivity.
  assert (H5 : 0 <= 7 < 2 ^ range_length (50, 5))
    by (unfold range_length; simpl; lia).
  assert (H6 : 0 <= 100 < 2 ^ range_length (55, 22))
    by (unfold range_length; simpl; lia).
  repeat (split; [assumption|]).
  exact (insert_field_two_fields Class_5 (50, 5) (55, 22) (repeat false 115)
           7 100 H1 H2 H3 H4 H5 H6).
Defined.
